(** * Yeogiya front-end: the API client and the router

    A shallow embedding of the two source files of the repository:

    - the API client (an axios instance with a request and a response
      interceptor, and the [apiClient] object with its eight operations);
    - [Router.tsx], a component holding one route.

    The browser is modelled by a [World]: the local storage (a finite map
    from keys to strings) and the list of observable effects performed so
    far (storage accesses, requests handed to the network adapter, console
    output).  Asynchronous code is modelled by a state monad whose result
    is a settled promise, either fulfilled with a value or rejected with an
    error. *)

From Stdlib Require Import ZArith Ascii String List Floats.PrimFloat.
From stdpp Require Import base option gmap strings list fin_maps.
Import ListNotations.

Set Warnings "-register-all".

Local Open Scope Z_scope.
Local Open Scope string_scope.
Local Open Scope list_scope.

(** ** JavaScript values *)

(** JSON-like values exchanged with the backend.  Numbers are IEEE 754
    doubles, as in JavaScript; objects keep the order of their keys. *)
Inductive JsValue : Type :=
  | JUndefined
  | JNull
  | JBool (b : bool)
  | JNum (x : float)
  | JStr (s : string)
  | JArr (items : list JsValue)
  | JObj (fields : list (string * JsValue)).

(** [Array<{lat: number, lng: number}>] *)
Record LatLng : Type := mkLatLng { lat : float; lng : float }.

Definition LatLng_toJs (p : LatLng) : JsValue :=
  JObj [("lat", JNum (lat p)); ("lng", JNum (lng p))].

Definition locations_toJs (locations : list LatLng) : JsValue :=
  JArr (map LatLng_toJs locations).

(** ** Requests, responses and errors *)

Inductive Method : Type := GET | POST | PUT | DELETE.

Record AxiosRequestConfig : Type := mkConfig {
  baseURL : string;
  timeout : Z;
  headers : gmap string string;
  method : Method;
  url : string;
  params : option (list (string * JsValue));
  data : option JsValue
}.

Record AxiosResponse : Type := mkResponse {
  status : Z;
  statusText : string;
  response_data : JsValue
}.

(** The error a request is rejected with.  [response] is absent for a
    network failure or a timeout. *)
Record AxiosError : Type := mkError {
  message : string;
  code : option string;
  response : option AxiosResponse
}.

(** ** The world: local storage and the trace of effects *)

Inductive Event : Type :=
  | EvGetItem (key : string)
  | EvRemoveItem (key : string)
  | EvSend (config : AxiosRequestConfig)
  | EvConsoleError (label : string) (error : AxiosError).

Record World : Type := mkWorld {
  localStorage : gmap string string;
  trace : list Event
}.

Definition emit (ev : Event) (w : World) : World :=
  {| localStorage := localStorage w; trace := trace w ++ [ev] |}.

(** ** Promises *)

Inductive Settled (A : Type) : Type :=
  | Fulfilled (value : A)
  | Rejected (reason : AxiosError).
Arguments Fulfilled {A} value.
Arguments Rejected {A} reason.

Definition Async (A : Type) : Type := World -> Settled A * World.

Definition resolve {A} (a : A) : Async A := fun w => (Fulfilled a, w).

(** [Promise.reject(error)], and [throw error] inside an async function. *)
Definition reject {A} (error : AxiosError) : Async A := fun w => (Rejected error, w).

(** [await m], then the rest of the function. *)
Definition andThen {A B} (m : Async A) (k : A -> Async B) : Async B :=
  fun w =>
    match m w with
    | (Fulfilled a, w') => k a w'
    | (Rejected e, w') => (Rejected e, w')
    end.

(** [promise.then(onFulfilled, onRejected)] *)
Definition then2 {A B} (m : Async A)
    (onFulfilled : A -> Async B) (onRejected : AxiosError -> Async B) : Async B :=
  fun w =>
    match m w with
    | (Fulfilled a, w') => onFulfilled a w'
    | (Rejected e, w') => onRejected e w'
    end.

(** [try { body } catch (error) { handler }] *)
Definition tryCatch {A} (body : Async A) (handler : AxiosError -> Async A) : Async A :=
  then2 body resolve handler.

Declare Scope async_scope.
Delimit Scope async_scope with async.
Notation "x <- m ;; k" := (andThen m (fun x => k))
  (at level 100, m at next level, right associativity) : async_scope.
Notation "m ;;; k" := (andThen m (fun _ => k))
  (at level 100, right associativity) : async_scope.
Local Open Scope async_scope.

(** ** Browser primitives *)

(** [localStorage.getItem(key)]: the stored string, or [null]. *)
Definition localStorage_getItem (key : string) : Async (option string) :=
  fun w => (Fulfilled (localStorage w !! key), emit (EvGetItem key) w).

(** [localStorage.removeItem(key)] *)
Definition localStorage_removeItem (key : string) : Async unit :=
  fun w =>
    (Fulfilled tt,
     emit (EvRemoveItem key)
       {| localStorage := delete key (localStorage w); trace := trace w |}).

(** [console.error(label, error)] *)
Definition console_error (label : string) (error : AxiosError) : Async unit :=
  fun w => (Fulfilled tt, emit (EvConsoleError label error) w).

(** Truthiness of a [string | null]: [null] and the empty string are falsy. *)
Definition truthy (v : option string) : bool :=
  match v with
  | Some s => negb (String.eqb s "")
  | None => false
  end.

(** ** The axios instance *)

Definition BASE_URL : string := "/api".

(** [axios.create({ baseURL, timeout, headers })]: the defaults every
    request of the instance starts from. *)
Definition api_defaults : AxiosRequestConfig :=
  {| baseURL := BASE_URL;
     timeout := 10000;
     headers := {[ "Content-Type" := "application/json" ]};
     method := GET;
     url := "";
     params := None;
     data := None |}.

(** [config.headers.Authorization = value] *)
Definition set_Authorization (value : string) (config : AxiosRequestConfig)
    : AxiosRequestConfig :=
  {| baseURL := baseURL config;
     timeout := timeout config;
     headers := <[ "Authorization" := value ]> (headers config);
     method := method config;
     url := url config;
     params := params config;
     data := data config |}.

(** The template literal [`Bearer ${token}`]; a [null] would be printed
    as the text null. *)
Definition Bearer (token : option string) : string :=
  "Bearer " +:+ match token with Some t => t | None => "null" end.

(** The request interceptor. *)
Definition request_onFulfilled (config : AxiosRequestConfig)
    : Async AxiosRequestConfig :=
  token <- localStorage_getItem "token" ;;
  if truthy token
  then resolve (set_Authorization (Bearer token) config)
  else resolve config.

Definition request_onRejected (error : AxiosError) : Async AxiosRequestConfig :=
  reject error.

(** [error.response?.status === 401] *)
Definition status_is_401 (error : AxiosError) : bool :=
  match response error with
  | Some r => (status r =? 401)%Z
  | None => false
  end.

(** The response interceptor. *)
Definition response_onFulfilled (r : AxiosResponse) : Async AxiosResponse :=
  resolve r.

Definition response_onRejected (error : AxiosError) : Async AxiosResponse :=
  (if status_is_401 error
   then localStorage_removeItem "token"
   else resolve tt) ;;;
  reject error.

(** The call made for a method of the instance: the defaults merged with
    the method, the path and the arguments of the call.  The library
    builds a new request object for every call, so the header the
    interceptor writes on one request does not reach the defaults or
    another request.  [headers] holds the headers the repository sets;
    the library adds defaults of its own (an [Accept] header), which are
    not part of the source and are not listed here, so the properties
    below speak of the headers [Content-Type] and [Authorization] only
    and never of the whole set. *)
Definition request_config (m : Method) (path : string)
    (query : option (list (string * JsValue))) (body : option JsValue)
    : AxiosRequestConfig :=
  {| baseURL := baseURL api_defaults;
     timeout := timeout api_defaults;
     headers := headers api_defaults;
     method := m;
     url := path;
     params := query;
     data := body |}.

Section Client.

(** The network: what the adapter of the HTTP library settles a request
    with.  Nothing is assumed about it. *)
Variable adapter : AxiosRequestConfig -> Settled AxiosResponse.

Definition dispatchRequest (config : AxiosRequestConfig) : Async AxiosResponse :=
  fun w => (adapter config, emit (EvSend config) w).

(** [api.request(config)]: the request interceptor, the adapter, the
    response interceptor, chained as promises. *)
Definition api_request (config : AxiosRequestConfig) : Async AxiosResponse :=
  then2
    (then2
       (then2 (resolve config) request_onFulfilled request_onRejected)
       dispatchRequest reject)
    response_onFulfilled response_onRejected.

Definition api_get (path : string) (query : option (list (string * JsValue)))
    : Async AxiosResponse :=
  api_request (request_config GET path query None).

Definition api_delete (path : string) : Async AxiosResponse :=
  api_request (request_config DELETE path None None).

Definition api_post (path : string) (body : option JsValue) : Async AxiosResponse :=
  api_request (request_config POST path None body).

Definition api_put (path : string) (body : option JsValue) : Async AxiosResponse :=
  api_request (request_config PUT path None body).

End Client.

(** ** The exported client *)

Module apiClient.
Section Operations.

Variable adapter : AxiosRequestConfig -> Settled AxiosResponse.

Definition get (path : string) (query : option (list (string * JsValue)))
: Async JsValue :=
tryCatch
(response <- api_get adapter path query ;;
 resolve (response_data response))
(fun error => console_error "GET 요청 실패:" error ;;; reject error).

Definition post (path : string) (body : option (list (string * JsValue)))
: Async JsValue :=
tryCatch
(response <- api_post adapter path (JObj <$> body) ;;
 resolve (response_data response))
(fun error => console_error "POST 요청 실패:" error ;;; reject error).

Definition put (path : string) (body : option (list (string * JsValue)))
: Async JsValue :=
tryCatch
(response <- api_put adapter path (JObj <$> body) ;;
 resolve (response_data response))
(fun error => console_error "PUT 요청 실패:" error ;;; reject error).

Definition delete (path : string) : Async JsValue :=
tryCatch
(response <- api_delete adapter path ;;
 resolve (response_data response))
(fun error => console_error "DELETE 요청 실패:" error ;;; reject error).

Definition searchAddress (query : string) : Async JsValue :=
tryCatch
(response <- api_get adapter "/naver-maps/search"
               (Some [("query", JStr query)]) ;;
 resolve (response_data response))
(fun error => console_error "주소 검색 실패:" error ;;; reject error).

Definition findNearbyStations (lat lng : float) : Async JsValue :=
tryCatch
(response <- api_get adapter "/naver-maps/nearby-stations"
               (Some [("lat", JNum lat); ("lng", JNum lng)]) ;;
 resolve (response_data response))
(fun error => console_error "지하철역 검색 실패:" error ;;; reject error).

Definition calculateCenterPoint (locations : list LatLng) : Async JsValue :=
tryCatch
(response <- api_post adapter "/naver-maps/center-point"
               (Some (locations_toJs locations)) ;;
 resolve (response_data response))
(fun error => console_error "중심점 계산 실패:" error ;;; reject error).

Definition reverseGeocode (lat lng : float) : Async JsValue :=
tryCatch
(response <- api_get adapter "/naver-maps/reverse-geocode"
               (Some [("lat", JNum lat); ("lng", JNum lng)]) ;;
 resolve (response_data response))
(fun error => console_error "리버스 지오코딩 실패:" error ;;; reject error).

End Operations.
End apiClient.

(** The shape shared by the eight operations: await the request, return
    the body of the response; on an error, one line on the console under
    the label of the operation, and the error is thrown again. *)
Definition operation (adapter : AxiosRequestConfig -> Settled AxiosResponse)
    (config : AxiosRequestConfig) (label : string) : Async JsValue :=
  tryCatch
    (response <- api_request adapter config ;;
     resolve (response_data response))
    (fun error => console_error label error ;;; reject error).

(** The world once the request interceptor has run and the request has
    been handed to the adapter. *)
Definition after_send (config : AxiosRequestConfig) (w : World) : World :=
  emit (EvSend config) (emit (EvGetItem "token") w).

(** ** Calls of the exported client

    One constructor per operation of [apiClient], with its arguments, so
    that a property can be stated for every public operation at once. *)

Inductive Call : Type :=
  | CallGet (path : string) (query : option (list (string * JsValue)))
  | CallPost (path : string) (body : option (list (string * JsValue)))
  | CallPut (path : string) (body : option (list (string * JsValue)))
  | CallDelete (path : string)
  | CallSearchAddress (query : string)
  | CallFindNearbyStations (lat lng : float)
  | CallCalculateCenterPoint (locations : list LatLng)
  | CallReverseGeocode (lat lng : float).

Definition invoke (adapter : AxiosRequestConfig -> Settled AxiosResponse)
    (c : Call) : Async JsValue :=
  match c with
  | CallGet path query => apiClient.get adapter path query
  | CallPost path body => apiClient.post adapter path body
  | CallPut path body => apiClient.put adapter path body
  | CallDelete path => apiClient.delete adapter path
  | CallSearchAddress query => apiClient.searchAddress adapter query
  | CallFindNearbyStations lat lng => apiClient.findNearbyStations adapter lat lng
  | CallCalculateCenterPoint locations => apiClient.calculateCenterPoint adapter locations
  | CallReverseGeocode lat lng => apiClient.reverseGeocode adapter lat lng
  end.

(** ** Reading a trace *)

Definition sent_requests (evs : list Event) : list AxiosRequestConfig :=
  omap (fun ev => match ev with EvSend c => Some c | _ => None end) evs.

Definition console_errors (evs : list Event) : list (string * AxiosError) :=
  omap (fun ev => match ev with EvConsoleError l e => Some (l, e) | _ => None end) evs.

Definition removed_keys (evs : list Event) : list string :=
  omap (fun ev => match ev with EvRemoveItem k => Some k | _ => None end) evs.

(** ** The address of a request

    The source hands the HTTP library a base path, a path and a [params]
    object; the library joins them into the address it requests.  The
    instance is created without a [paramsSerializer], so the library's own
    serializer applies.  The development is parametric in the encoding of a
    key or a value, [encode]; only [params] whose values are strings are
    rendered here, which is what [searchAddress] passes. *)

(** The library's [combineURLs(baseURL, relativeURL)], which it applies
    to a non-empty base and a relative path: one slash between the base,
    without its trailing slash (or two), and the path, without its leading
    slashes. *)
Fixpoint strip_leading_slashes (s : string) : string :=
  match s with
  | String "/" rest => strip_leading_slashes rest
  | _ => s
  end.

Fixpoint strip_trailing_slash (s : string) : string :=
  if String.eqb s "/" || String.eqb s "//" then ""
  else match s with
       | String c rest => String c (strip_trailing_slash rest)
       | EmptyString => EmptyString
       end.

Definition combineURLs (base relative : string) : string :=
  match relative with
  | EmptyString => base
  | _ => strip_trailing_slash base +:+ "/" +:+ strip_leading_slashes relative
  end.

Fixpoint string_params (ps : list (string * JsValue)) : option (list (string * string)) :=
  match ps with
  | [] => Some []
  | (k, JStr v) :: rest => cons (k, v) <$> string_params rest
  | _ => None
  end.

Fixpoint join_with (sep : string) (parts : list string) : string :=
  match parts with
  | [] => ""
  | [p] => p
  | p :: rest => p +:+ sep +:+ join_with sep rest
  end.

Section Address.

Variable encode : string -> string.

Definition serialize_params (ps : list (string * string)) : string :=
  join_with "&" (map (fun kv => encode (fst kv) +:+ "=" +:+ encode (snd kv)) ps).

(** The library's [buildURL(fullPath, params)] for a path without a
    query part or a fragment. *)
Definition requestURL (config : AxiosRequestConfig) : option string :=
  let fullPath := combineURLs (baseURL config) (url config) in
  match params config with
  | None => Some fullPath
  | Some ps =>
      match string_params ps with
      | Some kvs =>
          let q := serialize_params kvs in
          Some (if String.eqb q "" then fullPath else fullPath +:+ "?" +:+ q)
      | None => None
      end
  end.

End Address.

(** [encodeURIComponent] on a well-formed string, given by its UTF-8
    bytes: letters, digits and [- _ . ! ~ * ' ( )] stand for themselves,
    every other byte is written as a percent sign and two hexadecimal
    digits. *)
Definition is_unreserved (c : ascii) : bool :=
  let n := N_of_ascii c in
  ((65 <=? n) && (n <=? 90) || (97 <=? n) && (n <=? 122) || (48 <=? n) && (n <=? 57)
   || existsb (Ascii.eqb c) (list_ascii_of_string "-_.!~*'()"))%N.

Definition hex_digit (n : N) : ascii :=
  match String.get (N.to_nat n) "0123456789ABCDEF" with
  | Some c => c
  | None => "0"%char
  end.

Definition percent_byte (c : ascii) : string :=
  let n := N_of_ascii c in
  String "%" (String (hex_digit (n / 16)) (String (hex_digit (n mod 16)) ""))%N.

Fixpoint encodeURIComponent (s : string) : string :=
  match s with
  | EmptyString => EmptyString
  | String c rest =>
      (if is_unreserved c then String c "" else percent_byte c)
        +:+ encodeURIComponent rest
  end.

(** The encoding of the library's default serializer: as
    [encodeURIComponent], except that [: $ , [ ]] are left as they are and
    a space is written as a plus sign.  This follows the library, which is
    not part of the repository; the characters left as they are differ a
    little between its releases, the plus sign for a space does not, and
    the properties below depend on the space only. *)
Fixpoint axios_encode (s : string) : string :=
  match s with
  | EmptyString => EmptyString
  | String c rest =>
      (if Ascii.eqb c " " then "+"
       else if existsb (Ascii.eqb c) (list_ascii_of_string ":$,[]") then String c ""
       else if is_unreserved c then String c ""
       else percent_byte c)
        +:+ axios_encode rest
  end.

(** ** The router

    [Router.tsx] returns a fragment holding one [Routes] element with one
    [Route]. *)

Module Router.

Inductive Page : Type := Home.

Inductive Element : Type :=
  | Fragment (children : list Element)
  | Routes (children : list Element)
  | Route (path : string) (element : Element)
  | Component (page : Page).

Definition Router : Element :=
  Fragment [Routes [Route "/" (Component Home)]].

(** The routes declared by the children of a [Routes] element. *)
Definition declared_routes (children : list Element) : list (string * Element) :=
  omap (fun e => match e with Route p el => Some (p, el) | _ => None end) children.

(** All the routes of a view tree. *)
Fixpoint routes_of (e : Element) : list (string * Element) :=
  match e with
  | Fragment children => concat (map routes_of children)
  | Routes children => declared_routes children
  | Route _ _ => []
  | Component _ => []
  end.

Section Rendering.

(** [matches pattern pathname]: whether the routing library matches a
    location against the path of a route.  Nothing is assumed about
    it. *)
Variable matches : string -> string -> bool.

(** The pages a view tree shows at a location.  A [Routes] element
    shows the element of the route that matches, or nothing.  The
    library ranks the matching routes; taking the first one is the
    same for the routes of this repository, which are one. *)
Fixpoint render (pathname : string) (e : Element) : list Page :=
  match e with
  | Fragment children => concat (map (render pathname) children)
  | Routes children =>
      (fix first_match (cs : list Element) : list Page :=
         match cs with
         | [] => []
         | Route p el :: rest =>
             if matches p pathname then render pathname el
             else first_match rest
         | _ :: rest => first_match rest
         end) children
  | Route _ _ => []
  | Component page => [page]
  end.

End Rendering.

End Router.

(** ** Sample worlds, adapters and errors *)

(** A world whose storage holds a token, one that holds the empty string
    under the key, and one with an empty storage. *)
Definition world_with_token : World :=
  {| localStorage := {[ "token" := "abc" ]}; trace := [] |}.

Definition world_with_empty_token : World :=
  {| localStorage := {[ "token" := "" ]}; trace := [] |}.

Definition world_without_token : World :=
  {| localStorage := ∅; trace := [] |}.

(** An adapter that answers every request with status 200 and an empty
    object, and adapters that fail every request with a given error. *)
Definition adapter_ok (config : AxiosRequestConfig) : Settled AxiosResponse :=
  Fulfilled {| status := 200; statusText := "OK"; response_data := JObj [] |}.

Definition adapter_failing (error : AxiosError) (config : AxiosRequestConfig)
    : Settled AxiosResponse :=
  Rejected error.

Definition error_with_status (s : Z) : AxiosError :=
  {| message := "Request failed";
     code := Some "ERR_BAD_REQUEST";
     response := Some {| status := s; statusText := ""; response_data := JNull |} |}.

Definition network_error : AxiosError :=
  {| message := "Network Error"; code := Some "ERR_NETWORK"; response := None |}.

(** ** Operations, their labels and the events of one run *)

(** The events a run added to the trace: what the trace of the world it
    left holds beyond the trace of the world it started from. *)
Definition new_events (w w' : World) : list Event :=
  drop (length (trace w)) (trace w').

(** The eight members of [apiClient]. *)
Inductive Operation : Type :=
  | OpGet | OpPost | OpPut | OpDelete
  | OpSearchAddress | OpFindNearbyStations | OpCalculateCenterPoint
  | OpReverseGeocode.

Definition operation_of (c : Call) : Operation :=
  match c with
  | CallGet _ _ => OpGet
  | CallPost _ _ => OpPost
  | CallPut _ _ => OpPut
  | CallDelete _ => OpDelete
  | CallSearchAddress _ => OpSearchAddress
  | CallFindNearbyStations _ _ => OpFindNearbyStations
  | CallCalculateCenterPoint _ => OpCalculateCenterPoint
  | CallReverseGeocode _ _ => OpReverseGeocode
  end.

(** The first argument of [console.error] in the [catch] block of each
    member. *)
Definition failure_label (op : Operation) : string :=
  match op with
  | OpGet => "GET 요청 실패:"
  | OpPost => "POST 요청 실패:"
  | OpPut => "PUT 요청 실패:"
  | OpDelete => "DELETE 요청 실패:"
  | OpSearchAddress => "주소 검색 실패:"
  | OpFindNearbyStations => "지하철역 검색 실패:"
  | OpCalculateCenterPoint => "중심점 계산 실패:"
  | OpReverseGeocode => "리버스 지오코딩 실패:"
  end.

(** The request a member builds before the interceptors run. *)
Definition call_config (c : Call) : AxiosRequestConfig :=
  match c with
  | CallGet path query => request_config GET path query None
  | CallPost path body => request_config POST path None (JObj <$> body)
  | CallPut path body => request_config PUT path None (JObj <$> body)
  | CallDelete path => request_config DELETE path None None
  | CallSearchAddress query =>
      request_config GET "/naver-maps/search" (Some [("query", JStr query)]) None
  | CallFindNearbyStations lat lng =>
      request_config GET "/naver-maps/nearby-stations"
        (Some [("lat", JNum lat); ("lng", JNum lng)]) None
  | CallCalculateCenterPoint locations =>
      request_config POST "/naver-maps/center-point" None
        (Some (locations_toJs locations))
  | CallReverseGeocode lat lng =>
      request_config GET "/naver-maps/reverse-geocode"
        (Some [("lat", JNum lat); ("lng", JNum lng)]) None
  end.

(** What the request interceptor makes of a request in a world: the
    value it resolves with. *)
Definition intercepted (w : World) (config : AxiosRequestConfig)
    : AxiosRequestConfig :=
  if truthy (localStorage w !! "token")
  then set_Authorization (Bearer (localStorage w !! "token")) config
  else config.

(** The events after the storage read and the request, by the way the
    adapter settled the request. *)
Definition settle_events (label : string) (outcome : Settled AxiosResponse)
    : list Event :=
  match outcome with
  | Fulfilled _ => []
  | Rejected e =>
      (if status_is_401 e then [EvRemoveItem "token"] else [])
        ++ [EvConsoleError label e]
  end.

Definition settle_storage (outcome : Settled AxiosResponse)
    (storage : gmap string string) : gmap string string :=
  match outcome with
  | Fulfilled _ => storage
  | Rejected e => if status_is_401 e then delete "token" storage else storage
  end.

Definition settle_result (outcome : Settled AxiosResponse) : Settled JsValue :=
  match outcome with
  | Fulfilled r => Fulfilled (response_data r)
  | Rejected e => Rejected e
  end.

(** An error with a response of status 401 and a body. *)
Definition unauthorized : AxiosError :=
  {| message := "Request failed with status code 401";
     code := Some "ERR_BAD_REQUEST";
     response := Some {| status := 401; statusText := "Unauthorized";
                         response_data := JObj [("error", JStr "expired")] |} |}.

(** A storage with a token and two other keys. *)
Definition world_with_settings : World :=
  {| localStorage :=
       {[ "token" := "abc"; "theme" := "dark"; "lang" := "ko" ]};
     trace := [EvGetItem "theme"] |}.

(** * Properties *)

(** Successive [emit]s are put in the form [trace w ++ events]. *)
Ltac trace_events :=
  simpl; rewrite <- ?app_assoc; simpl; repeat split; reflexivity.

(** ** How the pieces run *)

Lemma request_onFulfilled_run (config : AxiosRequestConfig) (w : World) :
  request_onFulfilled config w =
    (Fulfilled (if truthy (localStorage w !! "token")
                then set_Authorization (Bearer (localStorage w !! "token")) config
                else config),
     emit (EvGetItem "token") w).
Proof.
  unfold request_onFulfilled, andThen, localStorage_getItem.
  destruct (truthy (localStorage w !! "token")); reflexivity.
Qed.

Lemma response_onRejected_run (error : AxiosError) (w : World) :
  response_onRejected error w =
    (Rejected error,
     if status_is_401 error
     then emit (EvRemoveItem "token")
            {| localStorage := delete "token" (localStorage w); trace := trace w |}
     else w).
Proof.
  unfold response_onRejected, andThen.
  destruct (status_is_401 error); reflexivity.
Qed.

Lemma truthy_Some (t : string) : truthy (Some t) = true <-> t <> "".
Proof.
  unfold truthy. destruct (String.eqb_spec t ""); simpl; split; congruence.
Qed.

Lemma status_is_401_true (error : AxiosError) :
  status_is_401 error = true <-> exists r, response error = Some r /\ status r = 401%Z.
Proof.
  unfold status_is_401. destruct (response error) as [r|].
  - rewrite Z.eqb_eq. split; [eauto | intros (r' & Hr & Hs); congruence].
  - split; [discriminate | intros (r' & Hr & _); discriminate].
Qed.

Section Pipeline.

Variable adapter : AxiosRequestConfig -> Settled AxiosResponse.

Lemma api_request_run (config0 : AxiosRequestConfig) (w : World) :
  exists config,
    request_onFulfilled config0 w = (Fulfilled config, emit (EvGetItem "token") w) /\
    api_request adapter config0 w =
      match adapter config with
      | Fulfilled r => (Fulfilled r, after_send config w)
      | Rejected e => response_onRejected e (after_send config w)
      end.
Proof.
  eexists. split; [apply request_onFulfilled_run |].
  unfold api_request, then2 at 1 2 3, resolve at 1.
  rewrite request_onFulfilled_run. unfold dispatchRequest, after_send.
  destruct (adapter _); reflexivity.
Qed.

(** One storage read, one request, and then either the body of the
    response, or the interceptor's work on the error, one line on the
    console and the same error. *)
Lemma operation_run (config0 : AxiosRequestConfig) (label : string) (w : World) :
  exists config,
    request_onFulfilled config0 w = (Fulfilled config, emit (EvGetItem "token") w) /\
    operation adapter config0 label w =
      match adapter config with
      | Fulfilled r => (Fulfilled (response_data r), after_send config w)
      | Rejected e =>
          (Rejected e,
           emit (EvConsoleError label e)
             (snd (response_onRejected e (after_send config w))))
      end.
Proof.
  destruct (api_request_run config0 w) as (config & Hreq & Hrun).
  exists config. split; [exact Hreq |].
  unfold operation, tryCatch, then2, andThen. rewrite Hrun.
  destruct (adapter config) as [r | e]; [reflexivity |].
  rewrite response_onRejected_run. reflexivity.
Qed.

(** Each operation of the client is an [operation] on a request built
    from the defaults of the instance. *)
Lemma invoke_operation (c : Call) :
  exists m path query body label,
    invoke adapter c = operation adapter (request_config m path query body) label.
Proof. destruct c; do 5 eexists; reflexivity. Qed.

End Pipeline.

(** ** What an operation leaves behind *)

Section Effects.

Variable adapter : AxiosRequestConfig -> Settled AxiosResponse.

(** The events an operation adds to the trace, the storage it leaves
    and its result, by the way the adapter settles the request. *)
Lemma operation_effects (config0 : AxiosRequestConfig) (label : string) (w : World) :
  exists config evs,
    request_onFulfilled config0 w = (Fulfilled config, emit (EvGetItem "token") w) /\
    trace (snd (operation adapter config0 label w)) = trace w ++ evs /\
    sent_requests evs = [config] /\
    match adapter config with
    | Fulfilled r =>
        fst (operation adapter config0 label w) = Fulfilled (response_data r) /\
        console_errors evs = [] /\
        removed_keys evs = [] /\
        localStorage (snd (operation adapter config0 label w)) = localStorage w
    | Rejected e =>
        fst (operation adapter config0 label w) = Rejected e /\
        console_errors evs = [(label, e)] /\
        removed_keys evs = (if status_is_401 e then ["token"] else []) /\
        localStorage (snd (operation adapter config0 label w)) =
          (if status_is_401 e then delete "token" (localStorage w) else localStorage w)
    end.
Proof.
  destruct (operation_run adapter config0 label w) as (config & Hreq & Hrun).
  exists config. rewrite Hrun.
  destruct (adapter config) as [r | e].
  - exists [EvGetItem "token"; EvSend config]. split; [exact Hreq |].
    trace_events.
  - rewrite response_onRejected_run.
    destruct (status_is_401 e).
    + exists [EvGetItem "token"; EvSend config; EvRemoveItem "token";
              EvConsoleError label e].
      split; [exact Hreq |]. trace_events.
    + exists [EvGetItem "token"; EvSend config; EvConsoleError label e].
      split; [exact Hreq |]. trace_events.
Qed.

End Effects.

(** The interceptor leaves everything but the headers as it found it, and
    among the headers it touches [Authorization] only. *)
Lemma set_Authorization_other (value key : string) (config : AxiosRequestConfig) :
  key <> "Authorization" ->
  headers (set_Authorization value config) !! key = headers config !! key.
Proof. intros Hk. simpl. apply lookup_insert_ne. congruence. Qed.

Lemma request_config_headers m path query body :
  headers (request_config m path query body)
    = {[ "Content-Type" := "application/json" ]}.
Proof. reflexivity. Qed.

Lemma request_config_no_Authorization m path query body :
  headers (request_config m path query body) !! "Authorization" = None.
Proof. rewrite request_config_headers. apply lookup_singleton_ne. discriminate. Qed.

(** What the request interceptor returns, by the token in storage. *)
Lemma request_onFulfilled_token (config : AxiosRequestConfig) (w : World) (t : string) :
  localStorage w !! "token" = Some t -> t <> "" ->
  request_onFulfilled config w =
    (Fulfilled (set_Authorization ("Bearer " +:+ t) config), emit (EvGetItem "token") w).
Proof.
  intros Ht Hne. rewrite request_onFulfilled_run, Ht.
  apply truthy_Some in Hne. rewrite Hne. reflexivity.
Qed.

Lemma request_onFulfilled_falsy (config : AxiosRequestConfig) (w : World) :
  truthy (localStorage w !! "token") = false ->
  request_onFulfilled config w = (Fulfilled config, emit (EvGetItem "token") w).
Proof. intros Hf. rewrite request_onFulfilled_run, Hf. reflexivity. Qed.

(** The interceptor changes the headers only. *)
Lemma request_onFulfilled_frame (config0 config : AxiosRequestConfig) (w w' : World) :
  request_onFulfilled config0 w = (Fulfilled config, w') ->
  baseURL config = baseURL config0 /\ timeout config = timeout config0 /\
  method config = method config0 /\ url config = url config0 /\
  params config = params config0 /\ data config = data config0 /\
  forall key, key <> "Authorization" -> headers config !! key = headers config0 !! key.
Proof.
  rewrite request_onFulfilled_run. intros [= <- _].
  destruct (truthy _); repeat split; auto using set_Authorization_other.
Qed.

Section ClientEffects.

Variable adapter : AxiosRequestConfig -> Settled AxiosResponse.

(** [operation_effects], for every call of the client. *)
Lemma invoke_effects (c : Call) (w : World) :
  exists m path query body label config evs,
    request_onFulfilled (request_config m path query body) w
      = (Fulfilled config, emit (EvGetItem "token") w) /\
    trace (snd (invoke adapter c w)) = trace w ++ evs /\
    sent_requests evs = [config] /\
    match adapter config with
    | Fulfilled r =>
        fst (invoke adapter c w) = Fulfilled (response_data r) /\
        console_errors evs = [] /\
        removed_keys evs = [] /\
        localStorage (snd (invoke adapter c w)) = localStorage w
    | Rejected e =>
        fst (invoke adapter c w) = Rejected e /\
        console_errors evs = [(label, e)] /\
        removed_keys evs = (if status_is_401 e then ["token"] else []) /\
        localStorage (snd (invoke adapter c w)) =
          (if status_is_401 e then delete "token" (localStorage w) else localStorage w)
    end.
Proof.
  destruct (invoke_operation adapter c) as (m & path & query & body & label & ->).
  destruct (operation_effects adapter (request_config m path query body) label w)
    as (config & evs & H).
  exists m, path, query, body, label, config, evs. exact H.
Qed.

End ClientEffects.

(** ** The request interceptor *)

(** C1, as stated, does not hold: a token string that is present under the
    key but empty is not sent; the request leaves without an
    Authorization header, not with the header set to the word Bearer and
    the (empty) token. *)
Lemma request_interceptor_empty_token_counterexample :
  localStorage world_with_empty_token !! "token" = Some "" /\
  fst (request_onFulfilled (request_config GET "/naver-maps/search" None None)
         world_with_empty_token)
    = Fulfilled (request_config GET "/naver-maps/search" None None) /\
  headers (request_config GET "/naver-maps/search" None None) !! "Authorization"
    <> Some ("Bearer " +:+ "").
Proof. split; [reflexivity |]. split; [reflexivity |]. discriminate. Qed.

(** C1 (amended): for every request of the client, if a non-empty token
    string is stored under the key [token], the request handed to the
    network carries the header [Authorization] with the word Bearer, a
    space and the token; if nothing is stored under the key, it carries no
    [Authorization] header.  Exactly one request is handed over. *)
Theorem request_interceptor_Authorization
    (adapter : AxiosRequestConfig -> Settled AxiosResponse) (c : Call) (w : World) :
  exists config evs,
    trace (snd (invoke adapter c w)) = trace w ++ evs /\
    sent_requests evs = [config] /\
    (forall t, localStorage w !! "token" = Some t -> t <> "" ->
       headers config !! "Authorization" = Some ("Bearer " +:+ t)) /\
    (localStorage w !! "token" = None ->
       headers config !! "Authorization" = None).
Proof.
  destruct (invoke_effects adapter c w)
    as (m & path & query & body & label & config & evs & Hreq & Htr & Hsent & _).
  exists config, evs. split; [exact Htr |]. split; [exact Hsent |]. split.
  - intros t Ht Hne. rewrite (request_onFulfilled_token _ _ _ Ht Hne) in Hreq.
    injection Hreq as <-. simpl. apply lookup_insert_eq.
  - intros Hnone. rewrite request_onFulfilled_falsy in Hreq by (rewrite Hnone; reflexivity).
    injection Hreq as <-. apply request_config_no_Authorization.
Qed.

Lemma request_interceptor_Authorization_witness :
  exists config evs,
    trace (snd (invoke adapter_ok (CallSearchAddress "seoul station") world_with_token))
      = trace world_with_token ++ evs /\
    sent_requests evs = [config] /\
    headers config !! "Authorization" = Some "Bearer abc".
Proof.
  destruct (request_interceptor_Authorization adapter_ok
              (CallSearchAddress "seoul station") world_with_token)
    as (config & evs & Htr & Hsent & Hyes & _).
  exists config, evs. split; [exact Htr |]. split; [exact Hsent |].
  apply (Hyes "abc"); [reflexivity | discriminate].
Defined.

(** C9: when the string stored under the key [token] is empty, the
    request interceptor returns the request as it received it, and the
    request handed to the network carries no [Authorization] header. *)
Theorem request_interceptor_empty_token
    (adapter : AxiosRequestConfig -> Settled AxiosResponse) (c : Call) (w : World)
    (Hempty : localStorage w !! "token" = Some "") :
  (forall config,
     request_onFulfilled config w = (Fulfilled config, emit (EvGetItem "token") w)) /\
  exists config evs,
    trace (snd (invoke adapter c w)) = trace w ++ evs /\
    sent_requests evs = [config] /\
    headers config !! "Authorization" = None.
Proof.
  assert (Hf : truthy (localStorage w !! "token") = false) by (rewrite Hempty; reflexivity).
  split; [intros config; apply request_onFulfilled_falsy, Hf |].
  destruct (invoke_effects adapter c w)
    as (m & path & query & body & label & config & evs & Hreq & Htr & Hsent & _).
  exists config, evs. split; [exact Htr |]. split; [exact Hsent |].
  rewrite request_onFulfilled_falsy in Hreq by exact Hf.
  injection Hreq as <-. apply request_config_no_Authorization.
Qed.

Lemma request_interceptor_empty_token_witness :
  fst (request_onFulfilled api_defaults world_with_empty_token) = Fulfilled api_defaults /\
  exists config evs,
    trace (snd (invoke adapter_ok (CallDelete "/places/1") world_with_empty_token))
      = trace world_with_empty_token ++ evs /\
    sent_requests evs = [config] /\
    headers config !! "Authorization" = None.
Proof.
  destruct (request_interceptor_empty_token adapter_ok (CallDelete "/places/1")
              world_with_empty_token eq_refl) as [Hi He].
  split; [rewrite Hi; reflexivity | exact He].
Defined.

(** ** The response interceptor *)

(** C2: for an error whose response has status 401, the response
    interceptor removes the key [token] from the storage, once, and
    rejects with the error it received; an operation of the client whose
    request fails with that error rejects with the same error. *)
Theorem response_interceptor_401 (error : AxiosError) (r : AxiosResponse)
    (Hresponse : response error = Some r) (Hstatus : status r = 401%Z) :
  (forall w,
     response_onRejected error w =
       (Rejected error,
        {| localStorage := delete "token" (localStorage w);
           trace := trace w ++ [EvRemoveItem "token"] |})) /\
  (forall adapter c w,
     (forall config, adapter config = Rejected error) ->
     exists evs,
       fst (invoke adapter c w) = Rejected error /\
       trace (snd (invoke adapter c w)) = trace w ++ evs /\
       removed_keys evs = ["token"] /\
       localStorage (snd (invoke adapter c w)) = delete "token" (localStorage w) /\
       localStorage (snd (invoke adapter c w)) !! "token" = None).
Proof.
  assert (H401 : status_is_401 error = true) by (apply status_is_401_true; eauto).
  split.
  - intros w. rewrite response_onRejected_run, H401. reflexivity.
  - intros adapter c w Hfail.
    destruct (invoke_effects adapter c w)
      as (m & path & query & body & label & config & evs & _ & Htr & _ & Hout).
    rewrite Hfail, H401 in Hout. destruct Hout as (Hres & _ & Hrem & Hst).
    exists evs. repeat split; auto. rewrite Hst. apply lookup_delete_eq.
Qed.

Lemma response_interceptor_401_witness :
  response_onRejected (error_with_status 401) world_with_token =
    (Rejected (error_with_status 401),
     {| localStorage := delete "token" (localStorage world_with_token);
        trace := [EvRemoveItem "token"] |}) /\
  fst (invoke (adapter_failing (error_with_status 401)) (CallSearchAddress "seoul")
         world_with_token) = Rejected (error_with_status 401).
Proof.
  destruct (response_interceptor_401 (error_with_status 401) _ eq_refl eq_refl)
    as [Hi Hc].
  split; [apply Hi |].
  destruct (Hc (adapter_failing (error_with_status 401)) (CallSearchAddress "seoul")
              world_with_token (fun _ => eq_refl)) as (evs & Hres & _).
  exact Hres.
Defined.

(** C5: for an error whose response has a status other than 401, the
    response interceptor leaves the storage (and the whole world) as it
    is and rejects with the error it received; an operation of the client
    whose request fails with that error leaves the storage as it is. *)
Theorem response_interceptor_other_status (error : AxiosError) (r : AxiosResponse)
    (Hresponse : response error = Some r) (Hstatus : status r <> 401%Z) :
  (forall w, response_onRejected error w = (Rejected error, w)) /\
  (forall adapter c w,
     (forall config, adapter config = Rejected error) ->
     exists evs,
       fst (invoke adapter c w) = Rejected error /\
       trace (snd (invoke adapter c w)) = trace w ++ evs /\
       removed_keys evs = [] /\
       localStorage (snd (invoke adapter c w)) = localStorage w).
Proof.
  assert (H401 : status_is_401 error = false).
  { unfold status_is_401. rewrite Hresponse. apply Z.eqb_neq, Hstatus. }
  split.
  - intros w. rewrite response_onRejected_run, H401. reflexivity.
  - intros adapter c w Hfail.
    destruct (invoke_effects adapter c w)
      as (m & path & query & body & label & config & evs & _ & Htr & _ & Hout).
    rewrite Hfail, H401 in Hout. destruct Hout as (Hres & _ & Hrem & Hst).
    exists evs. auto.
Qed.

Lemma response_interceptor_other_status_witness :
  response_onRejected (error_with_status 500) world_with_token =
    (Rejected (error_with_status 500), world_with_token) /\
  localStorage (snd (invoke (adapter_failing (error_with_status 500))
                       (CallGet "/places" None) world_with_token))
    = localStorage world_with_token.
Proof.
  assert (Hne : status {| status := 500; statusText := ""; response_data := JNull |}
                <> 401%Z) by discriminate.
  destruct (response_interceptor_other_status (error_with_status 500) _ eq_refl Hne)
    as [Hi Hc].
  split; [apply Hi |].
  destruct (Hc (adapter_failing (error_with_status 500)) (CallGet "/places" None)
              world_with_token (fun _ => eq_refl)) as (evs & _ & _ & _ & Hst).
  exact Hst.
Defined.

(** C10: for an error that carries no response, the status test is
    false: the response interceptor removes nothing, leaves the world as
    it is and rejects with the error it received; an operation of the
    client whose request fails that way keeps the token and rejects with
    the same error. *)
Theorem response_interceptor_no_response (error : AxiosError)
    (Hresponse : response error = None) :
  status_is_401 error = false /\
  (forall w, response_onRejected error w = (Rejected error, w)) /\
  (forall adapter c w,
     (forall config, adapter config = Rejected error) ->
     exists evs,
       fst (invoke adapter c w) = Rejected error /\
       trace (snd (invoke adapter c w)) = trace w ++ evs /\
       removed_keys evs = [] /\
       localStorage (snd (invoke adapter c w)) = localStorage w).
Proof.
  assert (H401 : status_is_401 error = false).
  { unfold status_is_401. rewrite Hresponse. reflexivity. }
  split; [exact H401 |]. split.
  - intros w. rewrite response_onRejected_run, H401. reflexivity.
  - intros adapter c w Hfail.
    destruct (invoke_effects adapter c w)
      as (m & path & query & body & label & config & evs & _ & Htr & _ & Hout).
    rewrite Hfail, H401 in Hout. destruct Hout as (Hres & _ & Hrem & Hst).
    exists evs. auto.
Qed.

Lemma response_interceptor_no_response_witness :
  response_onRejected network_error world_with_token =
    (Rejected network_error, world_with_token) /\
  localStorage (snd (invoke (adapter_failing network_error)
                       (CallReverseGeocode 37.5 127) world_with_token)) !! "token"
    = Some "abc".
Proof.
  destruct (response_interceptor_no_response network_error eq_refl) as (_ & Hi & Hc).
  split; [apply Hi |].
  destruct (Hc (adapter_failing network_error) (CallReverseGeocode 37.5 127)
              world_with_token (fun _ => eq_refl)) as (evs & _ & _ & _ & Hst).
  rewrite Hst. reflexivity.
Defined.

(** ** The operations of the client *)

(** C3: every operation of the client hands one request to the network;
    when the request succeeds, the operation returns the body of the
    response and nothing is written on the console; when it fails, one
    line is written on the console, with the error, and the operation
    rejects with that same error. *)
Theorem operation_result_or_original_error
    (adapter : AxiosRequestConfig -> Settled AxiosResponse) (c : Call) (w : World) :
  exists config evs label,
    trace (snd (invoke adapter c w)) = trace w ++ evs /\
    sent_requests evs = [config] /\
    match adapter config with
    | Fulfilled r =>
        fst (invoke adapter c w) = Fulfilled (response_data r) /\
        console_errors evs = []
    | Rejected e =>
        fst (invoke adapter c w) = Rejected e /\
        console_errors evs = [(label, e)]
    end.
Proof.
  destruct (invoke_effects adapter c w)
    as (m & path & query & body & label & config & evs & _ & Htr & Hsent & Hout).
  exists config, evs, label. split; [exact Htr |]. split; [exact Hsent |].
  destruct (adapter config); tauto.
Qed.

(** C7: the instance is created from constants: every request of the
    client is handed to the network with base path [/api], a timeout of
    10000 milliseconds and the header [Content-Type: application/json]. *)
Theorem client_fixed_configuration
    (adapter : AxiosRequestConfig -> Settled AxiosResponse) (c : Call) (w : World) :
  (BASE_URL = "/api" /\ baseURL api_defaults = "/api" /\
   timeout api_defaults = 10000%Z /\
   headers api_defaults = {[ "Content-Type" := "application/json" ]}) /\
  exists config evs,
    trace (snd (invoke adapter c w)) = trace w ++ evs /\
    sent_requests evs = [config] /\
    baseURL config = "/api" /\
    timeout config = 10000%Z /\
    headers config !! "Content-Type" = Some "application/json".
Proof.
  split; [repeat split |].
  destruct (invoke_effects adapter c w)
    as (m & path & query & body & label & config & evs & Hreq & Htr & Hsent & _).
  exists config, evs. split; [exact Htr |]. split; [exact Hsent |].
  apply request_onFulfilled_frame in Hreq.
  destruct Hreq as (Hb & Ht & _ & _ & _ & _ & Hh).
  rewrite Hb, Ht, Hh by discriminate. repeat split.
Qed.

(** ** The domain endpoints *)

Lemma calculateCenterPoint_operation adapter (locations : list LatLng) :
  apiClient.calculateCenterPoint adapter locations =
    operation adapter
      (request_config POST "/naver-maps/center-point" None
         (Some (locations_toJs locations)))
      "중심점 계산 실패:".
Proof. reflexivity. Qed.

Lemma searchAddress_operation adapter (query : string) :
  apiClient.searchAddress adapter query =
    operation adapter
      (request_config GET "/naver-maps/search" (Some [("query", JStr query)]) None)
      "주소 검색 실패:".
Proof. reflexivity. Qed.

(** C4: [calculateCenterPoint] hands one request to the network: a POST
    whose base path and path join to [/api/naver-maps/center-point],
    without query parameters, and whose body is the list of locations it
    was given, each an object with [lat] and [lng]; for the list
    [{lat:1,lng:2},{lat:3,lng:4}] the body is that list.  When the request
    succeeds, the operation returns the body of the response as it is. *)
Theorem calculateCenterPoint_request
    (adapter : AxiosRequestConfig -> Settled AxiosResponse)
    (locations : list LatLng) (w : World) :
  locations_toJs [mkLatLng 1 2; mkLatLng 3 4] =
    JArr [JObj [("lat", JNum 1); ("lng", JNum 2)];
          JObj [("lat", JNum 3); ("lng", JNum 4)]] /\
  exists config evs,
    trace (snd (apiClient.calculateCenterPoint adapter locations w)) = trace w ++ evs /\
    sent_requests evs = [config] /\
    method config = POST /\
    combineURLs (baseURL config) (url config) = "/api/naver-maps/center-point" /\
    params config = None /\
    data config =
      Some (JArr (map (fun p => JObj [("lat", JNum (lat p)); ("lng", JNum (lng p))])
                      locations)) /\
    (forall encode, requestURL encode config = Some "/api/naver-maps/center-point") /\
    match adapter config with
    | Fulfilled r =>
        fst (apiClient.calculateCenterPoint adapter locations w)
          = Fulfilled (response_data r)
    | Rejected e =>
        fst (apiClient.calculateCenterPoint adapter locations w) = Rejected e
    end.
Proof.
  split; [reflexivity |].
  rewrite calculateCenterPoint_operation.
  destruct (operation_effects adapter
              (request_config POST "/naver-maps/center-point" None
                 (Some (locations_toJs locations)))
              "중심점 계산 실패:" w)
    as (config & evs & Hreq & Htr & Hsent & Hout).
  exists config, evs. split; [exact Htr |]. split; [exact Hsent |].
  apply request_onFulfilled_frame in Hreq.
  destruct Hreq as (Hb & _ & Hm & Hu & Hp & Hd & _).
  split; [exact Hm |]. split; [rewrite Hb, Hu; reflexivity |].
  split; [exact Hp |]. split; [exact Hd |]. split.
  - intros encode. unfold requestURL. rewrite Hp, Hb, Hu. reflexivity.
  - destruct (adapter config); tauto.
Qed.

Lemma append_assignment_nonempty (k v : string) :
  String.eqb (k +:+ "=" +:+ v) "" = false.
Proof. destruct k; reflexivity. Qed.

(** Plain percent-encoding writes the space as [%20]. *)
Lemma encodeURIComponent_space :
  encodeURIComponent "seoul station" = "seoul%20station".
Proof. reflexivity. Qed.

(** C6, as stated, does not hold for the address: with the encoding of
    the library's default serializer, the space of the query is written as
    a plus sign. *)
Lemma searchAddress_address_counterexample :
  map (requestURL axios_encode)
      (sent_requests
         (trace (snd (apiClient.searchAddress adapter_ok "seoul station"
                        world_without_token))))
    = [Some "/api/naver-maps/search?query=seoul+station"] /\
  map (requestURL axios_encode)
      (sent_requests
         (trace (snd (apiClient.searchAddress adapter_ok "seoul station"
                        world_without_token))))
    <> [Some "/api/naver-maps/search?query=seoul%20station"].
Proof. split; [reflexivity | discriminate]. Qed.

(** C6 (amended): [searchAddress], applied to a query string [q], hands
    one request to the network: a GET with base path [/api], path
    [/naver-maps/search] and the single query parameter [query] bound to
    [q].  Its address is [/api/naver-maps/search?] followed by the encoded
    key, an equals sign and the encoded [q], for whatever encoding the
    serializer applies; with the library's default encoding this is
    [/api/naver-maps/search?query=seoul+station] for the query
    [seoul station]. *)
Theorem searchAddress_request
    (adapter : AxiosRequestConfig -> Settled AxiosResponse) (q : string) (w : World) :
  exists config evs,
    trace (snd (apiClient.searchAddress adapter q w)) = trace w ++ evs /\
    sent_requests evs = [config] /\
    method config = GET /\
    baseURL config = "/api" /\
    url config = "/naver-maps/search" /\
    params config = Some [("query", JStr q)] /\
    data config = None /\
    (forall encode,
       requestURL encode config =
         Some ("/api/naver-maps/search?" +:+ encode "query" +:+ "=" +:+ encode q)) /\
    requestURL axios_encode config =
      Some ("/api/naver-maps/search?query=" +:+ axios_encode q) /\
    axios_encode "seoul station" = "seoul+station".
Proof.
  rewrite searchAddress_operation.
  destruct (operation_effects adapter
              (request_config GET "/naver-maps/search" (Some [("query", JStr q)]) None)
              "주소 검색 실패:" w)
    as (config & evs & Hreq & Htr & Hsent & _).
  exists config, evs. split; [exact Htr |]. split; [exact Hsent |].
  apply request_onFulfilled_frame in Hreq.
  destruct Hreq as (Hb & _ & Hm & Hu & Hp & Hd & _).
  assert (Hurl : forall encode,
             requestURL encode config =
               Some ("/api/naver-maps/search?" +:+ encode "query" +:+ "=" +:+ encode q)).
  { intros encode. unfold requestURL. rewrite Hp, Hb, Hu. simpl.
    unfold serialize_params. simpl.
    rewrite append_assignment_nonempty. reflexivity. }
  split; [exact Hm |]. split; [exact Hb |]. split; [exact Hu |].
  split; [exact Hp |]. split; [exact Hd |].
  split; [exact Hurl |]. split; [apply Hurl | reflexivity].
Qed.

(** ** The router *)

Lemma Router_render (matches : string -> string -> bool) (pathname : string) :
  Router.render matches pathname Router.Router =
    (if matches "/" pathname then [Router.Home] else []).
Proof. simpl. destruct (matches "/" pathname); reflexivity. Qed.

(** C8: the view tree of [Router] holds one route, with path [/] and the
    home page as its element, and no other (so no route for the path
    [*]); at a location the path [/] matches it shows the home page, at
    any other location it shows nothing. *)
Theorem Router_single_route (matches : string -> string -> bool) (pathname : string) :
  Router.routes_of Router.Router = [("/", Router.Component Router.Home)] /\
  Router.render matches pathname Router.Router =
    (if matches "/" pathname then [Router.Home] else []) /\
  Router.render String.eqb "/" Router.Router = [Router.Home] /\
  Router.render String.eqb pathname Router.Router =
    (if String.eqb pathname "/" then [Router.Home] else []).
Proof.
  split; [reflexivity |]. split; [apply Router_render |].
  split; [reflexivity |].
  rewrite Router_render, (String.eqb_sym pathname). reflexivity.
Qed.

(** * Further properties of the client *)

(** ** One run, event by event *)

Lemma new_events_app (w w' : World) (evs : list Event) :
  trace w' = trace w ++ evs -> new_events w w' = evs.
Proof. intros H. unfold new_events. rewrite H. apply drop_app_length. Qed.

Lemma request_onFulfilled_intercepted (config : AxiosRequestConfig) (w : World) :
  request_onFulfilled config w
    = (Fulfilled (intercepted w config), emit (EvGetItem "token") w).
Proof. apply request_onFulfilled_run. Qed.

Lemma invoke_call_config adapter (c : Call) :
  invoke adapter c
    = operation adapter (call_config c) (failure_label (operation_of c)).
Proof. destruct c; reflexivity. Qed.

(** The whole of a run of a member of the client. *)
Lemma invoke_exact adapter (c : Call) (w : World) :
  let config := intercepted w (call_config c) in
  let outcome := adapter config in
  fst (invoke adapter c w) = settle_result outcome /\
  localStorage (snd (invoke adapter c w)) = settle_storage outcome (localStorage w) /\
  new_events w (snd (invoke adapter c w))
    = EvGetItem "token" :: EvSend config
        :: settle_events (failure_label (operation_of c)) outcome.
Proof.
  intros config outcome. rewrite invoke_call_config.
  destruct (operation_run adapter (call_config c)
              (failure_label (operation_of c)) w) as (config' & Hreq & Hrun).
  rewrite request_onFulfilled_intercepted in Hreq. injection Hreq as <-.
  fold config in Hrun. fold outcome in Hrun. rewrite Hrun.
  destruct outcome as [r | e]; simpl.
  - repeat split. apply new_events_app. trace_events.
  - rewrite response_onRejected_run.
    destruct (status_is_401 e); simpl;
      (repeat split; apply new_events_app; trace_events).
Qed.

Lemma intercepted_fields (w : World) (config : AxiosRequestConfig) :
  baseURL (intercepted w config) = baseURL config /\
  timeout (intercepted w config) = timeout config /\
  method (intercepted w config) = method config /\
  url (intercepted w config) = url config /\
  params (intercepted w config) = params config /\
  data (intercepted w config) = data config.
Proof. unfold intercepted. destruct (truthy _); repeat split. Qed.

Lemma intercepted_same_token (w1 w2 : World) (config : AxiosRequestConfig) :
  localStorage w1 !! "token" = localStorage w2 !! "token" ->
  intercepted w1 config = intercepted w2 config.
Proof. intros H. unfold intercepted. rewrite H. reflexivity. Qed.

Lemma intercepted_no_token (w : World) (config : AxiosRequestConfig) :
  localStorage w !! "token" = None -> intercepted w config = config.
Proof. intros H. unfold intercepted. rewrite H. reflexivity. Qed.

Lemma sent_requests_run (config : AxiosRequestConfig) (label : string)
    (outcome : Settled AxiosResponse) :
  sent_requests (EvGetItem "token" :: EvSend config :: settle_events label outcome)
    = [config].
Proof.
  destruct outcome as [r | e]; [reflexivity |].
  simpl. destruct (status_is_401 e); reflexivity.
Qed.

Lemma invoke_sent adapter (c : Call) (w : World) :
  sent_requests (new_events w (snd (invoke adapter c w)))
    = [intercepted w (call_config c)].
Proof.
  destruct (invoke_exact adapter c w) as (_ & _ & ->). apply sent_requests_run.
Qed.

(** ** What a run does, in order *)

(** X1: a run of any member of the client performs, in this order: one
    read of the key [token], one request, and, only when the request
    failed, the removal of the key [token] if the status of the response
    is 401, then one line on the console under the label of the member.
    Nothing else happens: no second request, no write to the storage. *)
Theorem operation_trace
    (adapter : AxiosRequestConfig -> Settled AxiosResponse) (c : Call) (w : World) :
  exists config,
    new_events w (snd (invoke adapter c w))
      = EvGetItem "token" :: EvSend config ::
          match adapter config with
          | Fulfilled _ => []
          | Rejected e =>
              (if status_is_401 e then [EvRemoveItem "token"] else [])
                ++ [EvConsoleError (failure_label (operation_of c)) e]
          end.
Proof.
  exists (intercepted w (call_config c)).
  destruct (invoke_exact adapter c w) as (_ & _ & ->). reflexivity.
Qed.

(** X2: the label written on the console depends on the member only, not
    on its arguments, the world or the error, and two different members
    have different labels: a line of the console names the member that
    failed. *)
Theorem failure_label_identifies_operation :
  (forall adapter c w e,
     (forall config, adapter config = Rejected e) ->
     console_errors (new_events w (snd (invoke adapter c w)))
       = [(failure_label (operation_of c), e)]) /\
  (forall op1 op2, failure_label op1 = failure_label op2 -> op1 = op2).
Proof.
  split.
  - intros adapter c w e Hfail.
    destruct (invoke_exact adapter c w) as (_ & _ & ->). rewrite Hfail. simpl.
    destruct (status_is_401 e); reflexivity.
  - intros op1 op2. destruct op1, op2; simpl; intros H;
      first [reflexivity | discriminate H].
Qed.

Lemma failure_label_identifies_operation_witness :
  console_errors
    (new_events world_with_settings
       (snd (invoke (adapter_failing unauthorized) (CallDelete "/places/7")
               world_with_settings)))
    = [("DELETE 요청 실패:", unauthorized)].
Proof.
  destruct failure_label_identifies_operation as [Hlabel _].
  apply (Hlabel (adapter_failing unauthorized) (CallDelete "/places/7")
           world_with_settings unauthorized).
  intros config. reflexivity.
Defined.

(** ** The storage *)

(** X3: no member of the client ever writes to the storage: the storage
    it leaves is contained in the storage it found, every key other than
    [token] keeps its value, and the key [token] keeps its value or is
    gone. *)
Theorem storage_only_loses_token
    (adapter : AxiosRequestConfig -> Settled AxiosResponse) (c : Call) (w : World) :
  localStorage (snd (invoke adapter c w)) ⊆ localStorage w /\
  (forall key, key <> "token" ->
     localStorage (snd (invoke adapter c w)) !! key = localStorage w !! key) /\
  (localStorage (snd (invoke adapter c w)) !! "token" = localStorage w !! "token" \/
   localStorage (snd (invoke adapter c w)) !! "token" = None).
Proof.
  destruct (invoke_exact adapter c w) as (_ & -> & _).
  destruct (adapter _) as [r | e]; simpl; [auto |].
  destruct (status_is_401 e); [| auto].
  split; [apply delete_subseteq |]. split.
  - intros key Hkey. apply lookup_delete_ne. congruence.
  - right. apply lookup_delete_eq.
Qed.

Lemma storage_only_loses_token_witness :
  localStorage
    (snd (invoke (adapter_failing unauthorized) (CallSearchAddress "gangnam")
            world_with_settings)) !! "theme" = Some "dark".
Proof.
  destruct (storage_only_loses_token (adapter_failing unauthorized)
              (CallSearchAddress "gangnam") world_with_settings) as (_ & Hother & _).
  rewrite Hother by discriminate. reflexivity.
Defined.

(** X4: a request that the network fulfils leaves the storage and the
    console alone whatever the status of the response, 401 included: the
    token is removed by the error path only. *)
Theorem fulfilled_response_keeps_token
    (adapter : AxiosRequestConfig -> Settled AxiosResponse) (r : AxiosResponse)
    (c : Call) (w : World)
    (Hfulfilled : forall config, adapter config = Fulfilled r) :
  fst (invoke adapter c w) = Fulfilled (response_data r) /\
  localStorage (snd (invoke adapter c w)) = localStorage w /\
  removed_keys (new_events w (snd (invoke adapter c w))) = [] /\
  console_errors (new_events w (snd (invoke adapter c w))) = [].
Proof.
  destruct (invoke_exact adapter c w) as (Hres & Hst & Hev).
  rewrite Hres, Hst, Hev, Hfulfilled. repeat split.
Qed.

Lemma fulfilled_response_keeps_token_witness :
  localStorage
    (snd (invoke (fun _ => Fulfilled {| status := 401; statusText := "Unauthorized";
                                        response_data := JNull |})
            (CallGet "/me" None) world_with_token)) !! "token" = Some "abc".
Proof.
  destruct (fulfilled_response_keeps_token
              (fun _ => Fulfilled {| status := 401; statusText := "Unauthorized";
                                     response_data := JNull |})
              {| status := 401; statusText := "Unauthorized"; response_data := JNull |}
              (CallGet "/me" None) world_with_token (fun _ => eq_refl))
    as (_ & Hst & _).
  rewrite Hst. reflexivity.
Defined.

(** X5: when a request fails with status 401 and nothing is stored under
    the key [token], the removal is still performed, once, and the
    storage is left equal to what it was. *)
Theorem unauthorized_without_token
    (adapter : AxiosRequestConfig -> Settled AxiosResponse) (error : AxiosError)
    (c : Call) (w : World)
    (Hfail : forall config, adapter config = Rejected error)
    (H401 : status_is_401 error = true)
    (Habsent : localStorage w !! "token" = None) :
  fst (invoke adapter c w) = Rejected error /\
  removed_keys (new_events w (snd (invoke adapter c w))) = ["token"] /\
  localStorage (snd (invoke adapter c w)) = localStorage w.
Proof.
  destruct (invoke_exact adapter c w) as (Hres & Hst & Hev).
  rewrite Hres, Hst, Hev, Hfail. simpl. rewrite H401.
  repeat split. apply delete_id, Habsent.
Qed.

Lemma unauthorized_without_token_witness :
  removed_keys
    (new_events world_without_token
       (snd (invoke (adapter_failing unauthorized) (CallPost "/places" None)
               world_without_token))) = ["token"] /\
  localStorage
    (snd (invoke (adapter_failing unauthorized) (CallPost "/places" None)
            world_without_token)) = localStorage world_without_token.
Proof.
  destruct (unauthorized_without_token (adapter_failing unauthorized) unauthorized
              (CallPost "/places" None) world_without_token
              (fun _ => eq_refl) eq_refl eq_refl) as (_ & Hrem & Hst).
  split; [exact Hrem | exact Hst].
Defined.

(** ** Requests, one after another *)

(** X6: the request a member sends is determined by the call and by what
    is stored under the key [token]: neither the rest of the storage, nor
    what happened before, nor the network changes it. *)
Theorem request_depends_on_token_only
    (adapter1 adapter2 : AxiosRequestConfig -> Settled AxiosResponse)
    (c : Call) (w1 w2 : World)
    (Htoken : localStorage w1 !! "token" = localStorage w2 !! "token") :
  sent_requests (new_events w1 (snd (invoke adapter1 c w1)))
    = sent_requests (new_events w2 (snd (invoke adapter2 c w2))).
Proof.
  rewrite !invoke_sent. f_equal. apply intercepted_same_token, Htoken.
Qed.

Lemma request_depends_on_token_only_witness :
  sent_requests
    (new_events world_with_token
       (snd (invoke adapter_ok (CallSearchAddress "hongdae") world_with_token)))
    = sent_requests
        (new_events world_with_settings
           (snd (invoke (adapter_failing network_error) (CallSearchAddress "hongdae")
                   world_with_settings))).
Proof.
  apply (request_depends_on_token_only adapter_ok (adapter_failing network_error)
           (CallSearchAddress "hongdae") world_with_token world_with_settings).
  reflexivity.
Defined.

(** X7: once a request has failed with status 401, the next request of
    the client, whichever it is, leaves without an [Authorization]
    header. *)
Theorem after_401_next_request_unauthenticated
    (adapter1 adapter2 : AxiosRequestConfig -> Settled AxiosResponse)
    (error : AxiosError) (c1 c2 : Call) (w : World)
    (Hfail : forall config, adapter1 config = Rejected error)
    (H401 : status_is_401 error = true) :
  let w1 := snd (invoke adapter1 c1 w) in
  exists config,
    sent_requests (new_events w1 (snd (invoke adapter2 c2 w1))) = [config] /\
    headers config !! "Authorization" = None.
Proof.
  intros w1.
  assert (Hgone : localStorage w1 !! "token" = None).
  { unfold w1. destruct (invoke_exact adapter1 c1 w) as (_ & -> & _).
    rewrite Hfail. simpl. rewrite H401. apply lookup_delete_eq. }
  exists (intercepted w1 (call_config c2)).
  split; [apply invoke_sent |].
  rewrite (intercepted_no_token _ _ Hgone).
  destruct c2; apply request_config_no_Authorization.
Qed.

Lemma after_401_next_request_unauthenticated_witness :
  exists config,
    sent_requests
      (new_events
         (snd (invoke (adapter_failing unauthorized) (CallGet "/me" None)
                 world_with_token))
         (snd (invoke adapter_ok (CallSearchAddress "jamsil")
                 (snd (invoke (adapter_failing unauthorized) (CallGet "/me" None)
                         world_with_token))))) = [config] /\
    headers config !! "Authorization" = None.
Proof.
  destruct (after_401_next_request_unauthenticated
              (adapter_failing unauthorized) adapter_ok unauthorized
              (CallGet "/me" None) (CallSearchAddress "jamsil") world_with_token
              (fun _ => eq_refl) eq_refl) as (config & Hsent & Hnone).
  exists config. split; [exact Hsent | exact Hnone].
Defined.

(** X8: a run that does not end in an error of status 401 (a success, an
    error with another status, an error without a response) leaves the
    storage as it found it, so the request that follows is the one that
    would have been sent in its place. *)
Theorem token_survives_other_outcomes
    (adapter1 adapter2 : AxiosRequestConfig -> Settled AxiosResponse)
    (c1 c2 : Call) (w : World)
    (Hnot401 : forall config e, adapter1 config = Rejected e -> status_is_401 e = false) :
  let w1 := snd (invoke adapter1 c1 w) in
  localStorage w1 = localStorage w /\
  removed_keys (new_events w w1) = [] /\
  sent_requests (new_events w1 (snd (invoke adapter2 c2 w1)))
    = sent_requests (new_events w (snd (invoke adapter2 c2 w))).
Proof.
  intros w1.
  assert (Hsame : localStorage w1 = localStorage w /\ removed_keys (new_events w w1) = []).
  { unfold w1. destruct (invoke_exact adapter1 c1 w) as (_ & -> & ->).
    destruct (adapter1 _) as [r | e] eqn:Hout; [split; reflexivity |].
    simpl. rewrite (Hnot401 _ _ Hout). split; reflexivity. }
  destruct Hsame as [Hst Hrem]. split; [exact Hst |]. split; [exact Hrem |].
  rewrite !invoke_sent. f_equal. apply intercepted_same_token. rewrite Hst. reflexivity.
Qed.

Lemma token_survives_other_outcomes_witness :
  localStorage
    (snd (invoke (adapter_failing (error_with_status 503)) (CallPut "/places/1" None)
            world_with_token)) = localStorage world_with_token.
Proof.
  destruct (token_survives_other_outcomes
              (adapter_failing (error_with_status 503)) adapter_ok
              (CallPut "/places/1" None) (CallDelete "/places/1") world_with_token)
    as (Hst & _).
  - intros config e [= <-]. reflexivity.
  - exact Hst.
Defined.

(** ** Headers *)

(** X10: on any request, the request interceptor leaves the storage as it
    is and every header other than [Authorization] as it is; with a
    non-empty token it overwrites an [Authorization] header the request
    already had; without one it keeps the header the request already had,
    it never removes it. *)
Theorem request_interceptor_headers (config : AxiosRequestConfig) (w : World) :
  exists config',
    request_onFulfilled config w = (Fulfilled config', emit (EvGetItem "token") w) /\
    localStorage (snd (request_onFulfilled config w)) = localStorage w /\
    (forall key, key <> "Authorization" ->
       headers config' !! key = headers config !! key) /\
    (forall t, localStorage w !! "token" = Some t -> t <> "" ->
       headers config' !! "Authorization" = Some ("Bearer " +:+ t)) /\
    (truthy (localStorage w !! "token") = false ->
       headers config' !! "Authorization" = headers config !! "Authorization").
Proof.
  exists (intercepted w config). rewrite request_onFulfilled_intercepted.
  split; [reflexivity |]. split; [reflexivity |]. unfold intercepted. split.
  - intros key Hkey. destruct (truthy _); [| reflexivity].
    apply set_Authorization_other, Hkey.
  - split.
    + intros t Ht Hne. rewrite Ht. apply truthy_Some in Hne. rewrite Hne.
      simpl. apply lookup_insert_eq.
    + intros Hf. rewrite Hf. reflexivity.
Qed.

Lemma request_interceptor_headers_witness :
  exists config',
    fst (request_onFulfilled
           (set_Authorization "Basic dXNlcg==" api_defaults) world_with_token)
      = Fulfilled config' /\
    headers config' !! "Authorization" = Some "Bearer abc" /\
    headers config' !! "Content-Type" = Some "application/json".
Proof.
  destruct (request_interceptor_headers
              (set_Authorization "Basic dXNlcg==" api_defaults) world_with_token)
    as (config' & Hrun & _ & Hother & Htoken & _).
  exists config'. split; [rewrite Hrun; reflexivity |]. split.
  - apply (Htoken "abc"); [reflexivity | discriminate].
  - rewrite Hother by discriminate. reflexivity.
Defined.

(** ** The requests of the other members *)

(** The request a member sends keeps the method, the path, the query
    parameters and the body the member chose, under the base path of the
    instance, and its result is the body of the response or the error of
    the network. *)
Lemma invoke_request adapter (c : Call) (w : World) :
  exists config,
    sent_requests (new_events w (snd (invoke adapter c w))) = [config] /\
    baseURL config = "/api" /\
    method config = method (call_config c) /\
    url config = url (call_config c) /\
    params config = params (call_config c) /\
    data config = data (call_config c) /\
    fst (invoke adapter c w) =
      match adapter config with
      | Fulfilled r => Fulfilled (response_data r)
      | Rejected e => Rejected e
      end.
Proof.
  exists (intercepted w (call_config c)). split; [apply invoke_sent |].
  destruct (intercepted_fields w (call_config c)) as (Hb & _ & Hm & Hu & Hp & Hd).
  destruct (invoke_exact adapter c w) as (Hres & _).
  rewrite Hb, Hm, Hu, Hp, Hd, Hres.
  split; [destruct c; reflexivity |]. repeat split.
Qed.

(** X11: [findNearbyStations], given a latitude and a longitude, sends one
    GET request to the path [/naver-maps/nearby-stations] under [/api],
    with the query parameters [lat] and [lng], in this order, bound to the
    two numbers as they were given, and without a body; it returns the
    body of the response, or rejects with the error of the network. *)
Theorem findNearbyStations_request
    (adapter : AxiosRequestConfig -> Settled AxiosResponse)
    (lat lng : float) (w : World) :
  exists config,
    sent_requests (new_events w (snd (apiClient.findNearbyStations adapter lat lng w)))
      = [config] /\
    method config = GET /\
    baseURL config = "/api" /\
    url config = "/naver-maps/nearby-stations" /\
    params config = Some [("lat", JNum lat); ("lng", JNum lng)] /\
    data config = None /\
    fst (apiClient.findNearbyStations adapter lat lng w) =
      match adapter config with
      | Fulfilled r => Fulfilled (response_data r)
      | Rejected e => Rejected e
      end.
Proof.
  destruct (invoke_request adapter (CallFindNearbyStations lat lng) w)
    as (config & Hsent & Hb & Hm & Hu & Hp & Hd & Hres).
  exists config. repeat split; assumption.
Qed.

(** X12: [reverseGeocode], given a latitude and a longitude, sends one GET
    request to the path [/naver-maps/reverse-geocode] under [/api], with
    the query parameters [lat] and [lng], in this order, and without a
    body; its request differs from the one of [findNearbyStations] for
    the same coordinates in the path only. *)
Theorem reverseGeocode_request
    (adapter : AxiosRequestConfig -> Settled AxiosResponse)
    (lat lng : float) (w : World) :
  exists config nearby,
    sent_requests (new_events w (snd (apiClient.reverseGeocode adapter lat lng w)))
      = [config] /\
    sent_requests (new_events w (snd (apiClient.findNearbyStations adapter lat lng w)))
      = [nearby] /\
    method config = GET /\
    baseURL config = "/api" /\
    url config = "/naver-maps/reverse-geocode" /\
    params config = Some [("lat", JNum lat); ("lng", JNum lng)] /\
    data config = None /\
    fst (apiClient.reverseGeocode adapter lat lng w) =
      match adapter config with
      | Fulfilled r => Fulfilled (response_data r)
      | Rejected e => Rejected e
      end /\
    (method config, baseURL config, timeout config, headers config,
     params config, data config)
      = (method nearby, baseURL nearby, timeout nearby, headers nearby,
         params nearby, data nearby) /\
    url config <> url nearby.
Proof.
  destruct (invoke_request adapter (CallReverseGeocode lat lng) w)
    as (config & Hsent & Hb & Hm & Hu & Hp & Hd & Hres).
  exists config, (intercepted w (call_config (CallFindNearbyStations lat lng))).
  split; [exact Hsent |].
  split; [apply (invoke_sent adapter (CallFindNearbyStations lat lng)) |].
  repeat (split; [assumption |]).
  change (apiClient.reverseGeocode adapter lat lng)
    with (invoke adapter (CallReverseGeocode lat lng)) in Hsent.
  rewrite invoke_sent in Hsent. injection Hsent as <-.
  unfold intercepted. destruct (truthy _); split; first [reflexivity | discriminate].
Qed.

(** X13: [get] sends one GET request to the path it is given under
    [/api], with the query parameters it is given, or none when they are
    left out, and never a body. *)
Theorem get_request
    (adapter : AxiosRequestConfig -> Settled AxiosResponse)
    (path : string) (query : option (list (string * JsValue))) (w : World) :
  exists config,
    sent_requests (new_events w (snd (apiClient.get adapter path query w))) = [config] /\
    method config = GET /\
    baseURL config = "/api" /\
    url config = path /\
    params config = query /\
    data config = None /\
    fst (apiClient.get adapter path query w) =
      match adapter config with
      | Fulfilled r => Fulfilled (response_data r)
      | Rejected e => Rejected e
      end.
Proof.
  destruct (invoke_request adapter (CallGet path query) w)
    as (config & Hsent & Hb & Hm & Hu & Hp & Hd & Hres).
  exists config. repeat split; assumption.
Qed.

(** X14: [post] and [put] send one request to the path they are given
    under [/api], with the method of their name, with the object they are
    given as its body, or no body when it is left out, and never query
    parameters; for the same arguments their requests differ in the method
    only. *)
Theorem post_put_request
    (adapter : AxiosRequestConfig -> Settled AxiosResponse)
    (path : string) (body : option (list (string * JsValue))) (w : World) :
  exists posted putted,
    sent_requests (new_events w (snd (apiClient.post adapter path body w))) = [posted] /\
    sent_requests (new_events w (snd (apiClient.put adapter path body w))) = [putted] /\
    method posted = POST /\ method putted = PUT /\
    baseURL posted = "/api" /\ baseURL putted = "/api" /\
    url posted = path /\ url putted = path /\
    params posted = None /\ params putted = None /\
    data posted = match body with Some fields => Some (JObj fields) | None => None end /\
    data putted = data posted /\
    headers putted = headers posted /\
    fst (apiClient.post adapter path body w) =
      match adapter posted with
      | Fulfilled r => Fulfilled (response_data r)
      | Rejected e => Rejected e
      end /\
    fst (apiClient.put adapter path body w) =
      match adapter putted with
      | Fulfilled r => Fulfilled (response_data r)
      | Rejected e => Rejected e
      end.
Proof.
  exists (intercepted w (call_config (CallPost path body))),
         (intercepted w (call_config (CallPut path body))).
  split; [apply (invoke_sent adapter (CallPost path body)) |].
  split; [apply (invoke_sent adapter (CallPut path body)) |].
  destruct (invoke_exact adapter (CallPost path body) w) as (Hpost & _).
  destruct (invoke_exact adapter (CallPut path body) w) as (Hput & _).
  simpl in Hpost, Hput. unfold settle_result in Hpost, Hput.
  split; [apply intercepted_fields |]. split; [apply intercepted_fields |].
  unfold intercepted in *. destruct (truthy _); destruct body;
    repeat split; assumption.
Qed.

(** X15: [delete] sends one DELETE request to the path it is given under
    [/api], without query parameters and without a body. *)
Theorem delete_request
    (adapter : AxiosRequestConfig -> Settled AxiosResponse)
    (path : string) (w : World) :
  exists config,
    sent_requests (new_events w (snd (apiClient.delete adapter path w))) = [config] /\
    method config = DELETE /\
    baseURL config = "/api" /\
    url config = path /\
    params config = None /\
    data config = None /\
    fst (apiClient.delete adapter path w) =
      match adapter config with
      | Fulfilled r => Fulfilled (response_data r)
      | Rejected e => Rejected e
      end.
Proof.
  destruct (invoke_request adapter (CallDelete path) w)
    as (config & Hsent & Hb & Hm & Hu & Hp & Hd & Hres).
  exists config. repeat split; assumption.
Qed.

(** X16: the token is sent as it is stored, neither trimmed nor
    shortened: requests of the client sent under two non-empty tokens
    carry the same [Authorization] header only if the tokens are equal. *)
Theorem Authorization_determines_token
    (adapter1 adapter2 : AxiosRequestConfig -> Settled AxiosResponse)
    (c1 c2 : Call) (w1 w2 : World) (t1 t2 : string)
    (config1 config2 : AxiosRequestConfig)
    (Ht1 : localStorage w1 !! "token" = Some t1) (Hne1 : t1 <> "")
    (Ht2 : localStorage w2 !! "token" = Some t2) (Hne2 : t2 <> "")
    (Hsent1 : sent_requests (new_events w1 (snd (invoke adapter1 c1 w1))) = [config1])
    (Hsent2 : sent_requests (new_events w2 (snd (invoke adapter2 c2 w2))) = [config2])
    (Hsame : headers config1 !! "Authorization" = headers config2 !! "Authorization") :
  t1 = t2.
Proof.
  rewrite invoke_sent in Hsent1, Hsent2.
  injection Hsent1 as <-. injection Hsent2 as <-.
  unfold intercepted in Hsame. rewrite Ht1, Ht2 in Hsame.
  apply truthy_Some in Hne1, Hne2. rewrite Hne1, Hne2 in Hsame.
  simpl in Hsame. rewrite !lookup_insert_eq in Hsame.
  injection Hsame as Heq. exact Heq.
Qed.

Lemma Authorization_determines_token_witness : "abc" = "abc".
Proof.
  apply (Authorization_determines_token adapter_ok (adapter_failing network_error)
           (CallGet "/me" None) (CallDelete "/places/1")
           world_with_token world_with_settings "abc" "abc"
           (intercepted world_with_token (call_config (CallGet "/me" None)))
           (intercepted world_with_settings (call_config (CallDelete "/places/1"))));
    first [reflexivity | discriminate].
Defined.
